(** * HeyDev DevRel Publisher: the client side of the gated workflow

    A shallow embedding of [src/app/page.tsx] (the [DevRelPublisher]
    component: the co-agent state document, the four actions registered
    with [useCopilotAction], their [renderAndWaitForResponse] functions and
    [renderStatus]) and of the state renderer of the sample page
    ([useCoAgentStateRender]).

    JSX is embedded as the list of the elements it produces, each
    interactive element carrying its handler; a handler is the list of the
    calls it makes, in order, to [setState] and [respond]. *)

From stdpp Require Import base strings list gmap.

Local Open Scope string_scope.
Local Open Scope list_scope.

(** ** JavaScript values *)

(** The values that cross the [respond] callback and that sit in the
    [any]-typed slots of the state. Numbers are the integers (indices). *)
Inductive JsVal :=
| JNull
| JBool (b : bool)
| JNum (n : Z)
| JStr (s : string).

Global Instance JsVal_eq_dec : EqDecision JsVal.
Proof. solve_decision. Defined.

(** Truthiness of a string and of an optional string ([field?: string]):
    [undefined] and the empty string are falsy. *)
Definition truthy_string (s : string) : bool :=
  if decide (s = "") then false else true.

Definition truthy (o : option string) : bool :=
  match o with
  | Some s => truthy_string s
  | None => false
  end.

(** [a || d] on strings. *)
Definition or_else (a d : string) : string :=
  if truthy_string a then a else d.

(** ** The state document: [interface DevRelAgentState] *)

Module Topic.
Record t := mk {
  title : string;
  description : string;
  source_type : string;
  source_id : string;
  content_types : list string
}.
End Topic.

Module ContentDrafts.
Record t := mk {
  blog_post : string;
  code_example : string;
  social_media : string
}.
End ContentDrafts.

Module ContentRecord.
Record t := mk {
  channel : string;
  title : string;
  summary : string;
  content : string;
  type : string
}.

(** [{ ...r, channel: v }] and its four siblings. *)
Definition with_channel (v : string) (r : t) : t :=
  mk v (title r) (summary r) (content r) (type r).
Definition with_title (v : string) (r : t) : t :=
  mk (channel r) v (summary r) (content r) (type r).
Definition with_summary (v : string) (r : t) : t :=
  mk (channel r) (title r) v (content r) (type r).
Definition with_content (v : string) (r : t) : t :=
  mk (channel r) (title r) (summary r) v (type r).
Definition with_type (v : string) (r : t) : t :=
  mk (channel r) (title r) (summary r) (content r) v.
End ContentRecord.

(** [copilotkit?: { actions?: any[]; metadata?: Record<string, any> }] *)
Module CopilotKit.
Record t := mk {
  actions : option (list JsVal);
  metadata : option (gmap string JsVal)
}.
End CopilotKit.

Record DevRelAgentState := mkState {
  repo_url : string;
  start_date : string;
  topics : list Topic.t;
  selected_topic : option Topic.t;
  content_drafts : ContentDrafts.t;
  content_record : ContentRecord.t;
  status : option string;
  error : option string;
  copilotkit : option CopilotKit.t;
  messages : option (list JsVal)
}.

(** The [initialState] given to [useCoAgent]. *)
Definition initialState : DevRelAgentState := {|
  repo_url := "";
  start_date := "";
  topics := [];
  selected_topic := None;
  content_drafts := ContentDrafts.mk "" "" "";
  content_record := ContentRecord.mk "" "" "" "" "";
  status := None;
  error := None;
  copilotkit := None;
  messages := None
|}.

(** Object spreads [{ ...state, field: v }], one per field the page
    overrides. *)
Definition with_repo_url (v : string) (s : DevRelAgentState) :=
  mkState v (start_date s) (topics s) (selected_topic s) (content_drafts s)
          (content_record s) (status s) (error s) (copilotkit s) (messages s).

Definition with_start_date (v : string) (s : DevRelAgentState) :=
  mkState (repo_url s) v (topics s) (selected_topic s) (content_drafts s)
          (content_record s) (status s) (error s) (copilotkit s) (messages s).

Definition with_selected_topic (v : option Topic.t) (s : DevRelAgentState) :=
  mkState (repo_url s) (start_date s) (topics s) v (content_drafts s)
          (content_record s) (status s) (error s) (copilotkit s) (messages s).

Definition with_content_record (v : ContentRecord.t) (s : DevRelAgentState) :=
  mkState (repo_url s) (start_date s) (topics s) (selected_topic s)
          (content_drafts s) v (status s) (error s) (copilotkit s) (messages s).

Definition with_copilotkit (v : option CopilotKit.t) (s : DevRelAgentState) :=
  mkState (repo_url s) (start_date s) (topics s) (selected_topic s)
          (content_drafts s) (content_record s) (status s) (error s) v
          (messages s).

(** ** Handlers and elements *)

(** What an event handler does: [setState(snapshot)] or [respond(value)]. *)
Inductive Effect :=
| SetState (snapshot : DevRelAgentState)
| Respond (value : JsVal).

(** The status a [renderAndWaitForResponse] function is given. *)
Inductive ActionStatus := inProgress | executing | complete.

Global Instance ActionStatus_eq_dec : EqDecision ActionStatus.
Proof. solve_decision. Defined.

(** The props of a render: [{ args, respond, status }]. [respond] is a
    callback or [undefined]; only its presence matters to the page
    ([respond && respond(v)]). *)
Module Props.
Record t := mk {
  args : gmap string JsVal;
  respond : bool;
  status : ActionStatus
}.
End Props.

(** [respond && respond(v)] *)
Definition call_respond (p : Props.t) (v : JsVal) : list Effect :=
  if Props.respond p then [Respond v] else [].

(** The elements the renders are made of. Class names and layout [div]s are
    left out; an element that reacts carries its handler. *)
Inductive Element :=
| Heading (text : string)
| Paragraph (text : string)
| Label (text : string)
| Input (kind : string) (value : string) (onChange : string → list Effect)
| TextArea (value : string) (onChange : string → list Effect)
| Select (value : string) (options : list string)
         (onChange : string → list Effect)
| Button (label : string) (disabled : bool) (onClick : list Effect)
| Card (topic : Topic.t) (onClick : list Effect).

(** What the human does to an element. *)
Inductive DomEvent :=
| Click
| Change (value : string).

(** The handler calls an event triggers. A disabled button does not
    deliver clicks, and a [select] changes to the value of one of its
    options only. *)
Definition dispatch (el : Element) (ev : DomEvent) : list Effect :=
  match el, ev with
  | Input _ _ h, Change v => h v
  | TextArea _ h, Change v => h v
  | Select _ opts h, Change v => if decide (v ∈ opts) then h v else []
  | Button _ disabled h, Click => if disabled then [] else h
  | Card _ h, Click => h
  | _, _ => []
  end.

(** An event on the element at a position of a rendering. *)
Definition fire (view : list Element) (pos : nat) (ev : DomEvent)
  : list Effect :=
  match view !! pos with
  | Some el => dispatch el ev
  | None => []
  end.

(** ** The action registry *)

(** One entry of an action's [parameters] array. *)
Module Param.
Record t := mk {
  name : string;
  type : string;
  description : string;
  required : bool
}.
End Param.

Module Action.
Record t := mk {
  name : string;
  description : string;
  parameters : list Param.t;
  renderAndWaitForResponse : Props.t → list Element
}.
End Action.

(** What [renderStatus] returns: the status box, the error box, or null. *)
Inductive StatusView :=
| StatusBox (text : string)
| ErrorBox (text : string).

(** ** The component [DevRelPublisher]

    [state] is the co-agent state the component was rendered with; the
    handlers below close over it, as the arrow functions of the page do.
    [useCoAgent] types [state] as a [DevRelAgentState] and [setState] as a
    function, so the guards [state?.] and [setState &&] always pass. *)

Section DevRelPublisher.

Variable state : DevRelAgentState.

(** [disabled={status !== "executing"}] *)
Definition not_executing (p : Props.t) : bool :=
  if decide (Props.status p = executing) then false else true.

(** GitHub Repository Input Action *)
Definition set_github_repo : Action.t := {|
  Action.name := "set_github_repo";
  Action.description := "Set the GitHub repository URL for analysis";
  Action.parameters :=
    [ Param.mk "repo_url" "string" "GitHub repository URL" true ];
  Action.renderAndWaitForResponse := λ p,
    [ Heading "Enter GitHub Repository";
      Input "text" (or_else (repo_url state) "")
            (λ v, [SetState (with_repo_url v state)]);
      Button "Submit" (not_executing p)
             (call_respond p (JStr (repo_url state))) ]
|}.

(** Date Range Selector Action *)
Definition set_date_range : Action.t := {|
  Action.name := "set_date_range";
  Action.description := "Set the start date for repository analysis";
  Action.parameters :=
    [ Param.mk "start_date" "string" "Start date in YYYY-MM-DD format" true ];
  Action.renderAndWaitForResponse := λ p,
    [ Heading "Select Analysis Start Date";
      Paragraph "We'll analyze repository changes after this date";
      Input "date" (or_else (start_date state) "")
            (λ v, [SetState (with_start_date v state)]);
      Button "Submit" (not_executing p)
             (call_respond p (JStr (start_date state))) ]
|}.

(** The card of one topic: the body of [state.topics.map((topic, idx) => ...)]. *)
Definition topic_card (p : Props.t) (idx : nat) (topic : Topic.t) : Element :=
  Card topic
       (let newState := with_selected_topic (Some topic) state in
        SetState newState :: call_respond p (JNum (Z.of_nat idx))).

(** Topic Selection Action *)
Definition select_topic : Action.t := {|
  Action.name := "select_topic";
  Action.description := "Select a topic for content generation";
  Action.parameters :=
    [ Param.mk "topic_index" "number" "Index of selected topic" true ];
  Action.renderAndWaitForResponse := λ p,
    [ Heading "Select Content Topic";
      Paragraph "Choose a topic to generate content for" ]
    ++ imap (topic_card p) (topics state)
    ++ (if decide (length (topics state) = 0)
        then [ Paragraph "No topics generated yet. Please wait..." ]
        else [])
|}.

(** The snapshot of the Save & Publish handler:
    [{ ...state, copilotkit: { ...state.copilotkit,
         metadata: { ...(state.copilotkit?.metadata || {}), confirmed: true } } }] *)
Definition confirmed_snapshot : DevRelAgentState :=
  let old_actions := copilotkit state ≫= CopilotKit.actions in
  let old_metadata := default ∅ (copilotkit state ≫= CopilotKit.metadata) in
  with_copilotkit
    (Some (CopilotKit.mk old_actions
                         (Some (<["confirmed" := JBool true]> old_metadata))))
    state.

(** [{ ...state, content_record: { ...state.content_record, field: v } }] *)
Definition edit_record (upd : string → ContentRecord.t → ContentRecord.t)
  (v : string) : list Effect :=
  [SetState (with_content_record (upd v (content_record state)) state)].

Definition channel_options : list string :=
  [ ""; "blog"; "twitter"; "linkedin"; "github" ].

Definition type_options : list string :=
  [ ""; "blog_post"; "code_example"; "social_media" ].

(** Content Editor Action *)
Definition confirm_content : Action.t := {|
  Action.name := "confirm_content";
  Action.description := "Confirm edited content is ready to save";
  Action.parameters := [];
  Action.renderAndWaitForResponse := λ p,
    [ Heading "Edit & Publish Content";
      Label "Channel";
      Select (or_else (ContentRecord.channel (content_record state)) "")
             channel_options (edit_record ContentRecord.with_channel);
      Label "Title";
      Input "text" (or_else (ContentRecord.title (content_record state)) "")
            (edit_record ContentRecord.with_title);
      Label "Summary";
      TextArea (or_else (ContentRecord.summary (content_record state)) "")
               (edit_record ContentRecord.with_summary);
      Label "Content";
      TextArea (or_else (ContentRecord.content (content_record state)) "")
               (edit_record ContentRecord.with_content);
      Label "Type";
      Select (or_else (ContentRecord.type (content_record state)) "")
             type_options (edit_record ContentRecord.with_type);
      Button "Edit More" (not_executing p) (call_respond p (JStr "CANCEL"));
      Button "Save & Publish" (not_executing p)
             (SetState confirmed_snapshot :: call_respond p (JStr "CONFIRM")) ]
|}.

(** The four [useCopilotAction] registrations, in the order of the page. *)
Definition registered_actions : list Action.t :=
  [ set_github_repo; set_date_range; select_topic; confirm_content ].

(** Status display *)
Definition renderStatus : option StatusView :=
  if truthy (status state) then Some (StatusBox (default "" (status state)))
  else if truthy (error state)
       then Some (ErrorBox ("Error: " +:+ default "" (error state)))
       else None.

End DevRelPublisher.

(** ** The state renderer of the sample page ([useCoAgentStateRender]) *)

Module SamplePage.

Record ContentRecord := mkRecord {
  channel : string;
  title : string;
  summary : string;
  content : string;
  type : string;
  id : option string
}.

Record AgentState := mkAgentState {
  content_record : option ContentRecord;
  status : option string;
  error : option string
}.

Inductive Block :=
| StatusLine (text : string)
| ErrorLine (text : string)
| RecordCard (r : ContentRecord).

(** [{state?.status && ...} {state?.error && ...} {state?.content_record && ...}] *)
Definition render (state : AgentState) : list Block :=
  (if truthy (status state) then [StatusLine (default "" (status state))]
   else [])
  ++ (if truthy (error state) then [ErrorLine (default "" (error state))]
      else [])
  ++ (match content_record state with
      | Some r => [RecordCard r]
      | None => []
      end).

End SamplePage.

(** ** The gate behind a render *)

(** Modelled from the spec: the Action Gate of section 4.3, which the page
    gets from the [useCopilotAction] hook of the CopilotKit library (its
    code is not part of these sources). A gate instance is pending while
    its render is given the status [executing]; one [respond(value)] call
    resolves it with [value] as its result, a call on a gate that is not
    pending is a no-op, and [respond] is handed to the render only while
    the gate is pending. *)
Record Gate := mkGate {
  gate_action : string;
  gate_status : ActionStatus;
  gate_result : option JsVal
}.

(** Modelled from the spec: the props the hook gives the render of a gate
    instance, [respond] being there only while the gate is pending. *)
Definition props_of (g : Gate) : Props.t :=
  Props.mk ∅ (bool_decide (gate_status g = executing)) (gate_status g).

(** The client: the co-agent state it holds and the gate on display. *)
Record Client := mkClient {
  agent_state : DevRelAgentState;
  gate : Gate
}.

(** Modelled from the spec: one handler call as the hooks carry it out.
    [setState] replaces the held document by the snapshot it is given
    (full-document replace, section 4.1); [respond] resolves the gate if it
    is pending and does nothing otherwise (section 4.3). *)
Definition perform (c : Client) (e : Effect) : Client :=
  match e with
  | SetState snapshot => mkClient snapshot (gate c)
  | Respond v =>
      match gate_status (gate c) with
      | executing =>
          mkClient (agent_state c)
                   (mkGate (gate_action (gate c)) complete (Some v))
      | _ => c
      end
  end.

Definition perform_all (c : Client) (es : list Effect) : Client :=
  foldl perform c es.

(** The render of the gate on display, for a given co-agent state. *)
Definition find_action (state : DevRelAgentState) (name : string)
  : option Action.t :=
  List.find (λ a, bool_decide (Action.name a = name))
            (registered_actions state).

Definition view_of (state : DevRelAgentState) (name : string) (p : Props.t)
  : list Element :=
  match find_action state name with
  | Some a => Action.renderAndWaitForResponse a p
  | None => []
  end.

(** An event on a rendering made from [rendered], arriving at client [c].
    The handlers are those of the rendering: they hold the state and the
    props it was made from. *)
Definition deliver (rendered : DevRelAgentState) (p : Props.t) (c : Client)
  (pos : nat) (ev : DomEvent) : Client :=
  perform_all c (fire (view_of rendered (gate_action (gate c)) p) pos ev).

(** The usual case: the rendering is the one of the client's current state
    and gate. *)
Definition act (c : Client) (pos : nat) (ev : DomEvent) : Client :=
  deliver (agent_state c) (props_of (gate c)) c pos ev.

(** The position of the card of topic [idx] in the [select_topic] render,
    after its heading and paragraph. *)
Definition card_position (idx : nat) : nat := 2 + idx.

(** The positions of the input and of the Submit button in the
    [set_github_repo] render, and of the Edit More and Save & Publish
    buttons in the [confirm_content] render. *)
Definition repo_input : nat := 1.
Definition repo_submit : nat := 2.
Definition edit_more : nat := 11.
Definition save_and_publish : nat := 12.

(** ** Sessions of human interactions *)

(** One interaction: an event at some position of the render of some
    action, whatever props that render was given (the renders of earlier
    gates stay on the page). *)
Record Interaction := mkInteraction {
  target : string;
  props : Props.t;
  position : nat;
  event : DomEvent
}.

Definition effects_of (state : DevRelAgentState) (i : Interaction)
  : list Effect :=
  fire (view_of state (target i) (props i)) (position i) (event i).

(** The state after the [setState] calls of a handler. *)
Definition commit (state : DevRelAgentState) (es : list Effect)
  : DevRelAgentState :=
  foldl (λ s e, match e with SetState s' => s' | Respond _ => s end) state es.

(** The values a handler responds with. *)
Definition responses (es : list Effect) : list JsVal :=
  omap (λ e, match e with Respond v => Some v | SetState _ => None end) es.

Definition interact (state : DevRelAgentState) (i : Interaction)
  : DevRelAgentState :=
  commit state (effects_of state i).

Definition session (state : DevRelAgentState) (steps : list Interaction)
  : DevRelAgentState :=
  foldl interact state steps.

(** ** The agent side of the confirm gate *)

(** Modelled from the spec: the Workflow Sequencer of section 4.4 (the agent
    process, which is not part of these sources), as far as the outcome of
    a resolved gate goes: the stages follow one another in the fixed order,
    ["CANCEL"] on [confirm_content] opens the same gate again, and
    ["CONFIRM"] ends the pipeline. *)
Inductive Stage :=
| AtGate (name : string)
| Finished.

(** Modelled from the spec: where the sequencer goes when the gate [name]
    was resolved with [response] (section 4.4). *)
Definition next_stage (name : string) (response : JsVal) : Stage :=
  if decide (name = "set_github_repo") then AtGate "set_date_range"
  else if decide (name = "set_date_range") then AtGate "select_topic"
  else if decide (name = "select_topic") then AtGate "confirm_content"
  else if decide (response = JStr "CANCEL") then AtGate name
  else Finished.

(** ** The fields of the document *)

Inductive Field :=
| F_repo_url | F_start_date | F_topics | F_selected_topic | F_content_drafts
| F_channel | F_title | F_summary | F_content | F_type
| F_status | F_error | F_copilotkit | F_messages.

Global Instance Field_eq_dec : EqDecision Field.
Proof. solve_decision. Defined.

Inductive FieldValue :=
| VString (s : string)
| VOptString (o : option string)
| VTopics (l : list Topic.t)
| VTopic (o : option Topic.t)
| VDrafts (d : ContentDrafts.t)
| VCopilotKit (o : option CopilotKit.t)
| VMessages (o : option (list JsVal)).

Definition get (f : Field) (s : DevRelAgentState) : FieldValue :=
  match f with
  | F_repo_url => VString (repo_url s)
  | F_start_date => VString (start_date s)
  | F_topics => VTopics (topics s)
  | F_selected_topic => VTopic (selected_topic s)
  | F_content_drafts => VDrafts (content_drafts s)
  | F_channel => VString (ContentRecord.channel (content_record s))
  | F_title => VString (ContentRecord.title (content_record s))
  | F_summary => VString (ContentRecord.summary (content_record s))
  | F_content => VString (ContentRecord.content (content_record s))
  | F_type => VString (ContentRecord.type (content_record s))
  | F_status => VOptString (status s)
  | F_error => VOptString (error s)
  | F_copilotkit => VCopilotKit (copilotkit s)
  | F_messages => VMessages (messages s)
  end.

(** ** What the handlers of the page call

    [handler_call state name e]: [e] is a call made by a handler of the
    render of action [name], for the co-agent state [state]. One
    constructor per [setState] and [respond] call of the page. *)
Inductive handler_call (state : DevRelAgentState) : string → Effect → Prop :=
| call_edit_repo_url v :
    handler_call state "set_github_repo" (SetState (with_repo_url v state))
| call_submit_repo :
    handler_call state "set_github_repo" (Respond (JStr (repo_url state)))
| call_edit_start_date v :
    handler_call state "set_date_range" (SetState (with_start_date v state))
| call_submit_date :
    handler_call state "set_date_range" (Respond (JStr (start_date state)))
| call_pick_topic idx topic :
    topics state !! idx = Some topic →
    handler_call state "select_topic"
                 (SetState (with_selected_topic (Some topic) state))
| call_respond_topic idx topic :
    topics state !! idx = Some topic →
    handler_call state "select_topic" (Respond (JNum (Z.of_nat idx)))
| call_edit_channel v :
    v ∈ channel_options →
    handler_call state "confirm_content"
      (SetState (with_content_record
                   (ContentRecord.with_channel v (content_record state)) state))
| call_edit_title v :
    handler_call state "confirm_content"
      (SetState (with_content_record
                   (ContentRecord.with_title v (content_record state)) state))
| call_edit_summary v :
    handler_call state "confirm_content"
      (SetState (with_content_record
                   (ContentRecord.with_summary v (content_record state)) state))
| call_edit_content v :
    handler_call state "confirm_content"
      (SetState (with_content_record
                   (ContentRecord.with_content v (content_record state)) state))
| call_edit_type v :
    v ∈ type_options →
    handler_call state "confirm_content"
      (SetState (with_content_record
                   (ContentRecord.with_type v (content_record state)) state))
| call_cancel :
    handler_call state "confirm_content" (Respond (JStr "CANCEL"))
| call_set_confirmed :
    handler_call state "confirm_content" (SetState (confirmed_snapshot state))
| call_confirm :
    handler_call state "confirm_content" (Respond (JStr "CONFIRM")).

(** ** Predicates of the properties below *)

(** The confirmation flag: [state.copilotkit?.metadata?.confirmed]. *)
Definition confirmationFlag (s : DevRelAgentState) : option JsVal :=
  match copilotkit s ≫= CopilotKit.metadata with
  | Some m => m !! "confirmed"
  | None => None
  end.

(** The channels and the content kinds of a content record. *)
Definition channels : list string := [ "blog"; "twitter"; "linkedin"; "github" ].

Definition content_kinds : list string :=
  [ "blog_post"; "code_example"; "social_media" ].

Definition record_enums_ok (s : DevRelAgentState) : Prop :=
  (ContentRecord.channel (content_record s) = ""
   ∨ ContentRecord.channel (content_record s) ∈ channels)
  ∧ (ContentRecord.type (content_record s) = ""
     ∨ ContentRecord.type (content_record s) ∈ content_kinds).

(** ** Sample data *)

Definition topic0 : Topic.t :=
  Topic.mk "Release notes" "What changed in 1.2" "commit" "abc123"
           [ "blog_post" ].

Definition topic1 : Topic.t :=
  Topic.mk "Fix login redirect" "Issue 42 and its fix" "issue" "42"
           [ "code_example"; "social_media" ].

(** A state with the given topics and nothing selected. *)
Definition with_topics (ts : list Topic.t) : DevRelAgentState :=
  mkState "https://github.com/acme/widget" "2024-01-01" ts None
          (ContentDrafts.mk "" "" "") (ContentRecord.mk "" "" "" "" "")
          None None None None.

(** A state in which a progress message and a failure are both set. *)
Definition status_and_error : DevRelAgentState :=
  mkState "https://github.com/acme/widget" "2024-01-01" [] None
          (ContentDrafts.mk "" "" "") (ContentRecord.mk "" "" "" "" "")
          (Some "Analyzing repository...") (Some "GitHub API rate limit")
          None None.

Definition sample_status_and_error : SamplePage.AgentState :=
  SamplePage.mkAgentState None (Some "Analyzing repository...")
                          (Some "GitHub API rate limit").

Definition pending (name : string) : Gate := mkGate name executing None.

(** ** The page around the gates: what [DevRelPublisher] returns *)

(** One item of the stepper: its number, its label, whether the label is in
    the accent colour ([activeStep > number]) and whether the circle is
    ([activeStep >= number]). *)
Module Step.
Record t := mk {
  number : nat;
  label : string;
  passed : bool;
  reached : bool
}.
End Step.

(** [const [activeStep, setActiveStep] = useState(1)] *)
Definition initialActiveStep : nat := 1.

(** Stepper *)
Definition stepper (activeStep : nat) : list Step.t :=
  [ Step.mk 1 "Repository" (1 <? activeStep)%nat (1 <=? activeStep)%nat;
    Step.mk 2 "Select Topic" (2 <? activeStep)%nat (2 <=? activeStep)%nat;
    Step.mk 3 "Edit & Publish" (3 <? activeStep)%nat (3 <=? activeStep)%nat ].

(** The preview of the content record under the stepper. *)
Module Preview.
Record t := mk {
  heading : string;
  summary : string;
  body : string
}.
End Preview.

(** [{state?.content_record?.content && (<div> <h2>{title || "Untitled"}</h2>
      <p>{summary || ""}</p> <Markdown content={content} /> </div>)}] *)
Definition content_preview (state : DevRelAgentState) : option Preview.t :=
  let r := content_record state in
  if truthy_string (ContentRecord.content r)
  then Some (Preview.mk (or_else (ContentRecord.title r) "Untitled")
                        (or_else (ContentRecord.summary r) "")
                        (ContentRecord.content r))
  else None.

(** ** The sample page [CopilotKitPage]: the theme colour *)

Module CopilotKitPage.

(** [useState("#6366f1")] *)
Definition initialThemeColor : string := "#6366f1".

(** The handler of the [setThemeColor] action:
    [handler({ themeColor }) { setThemeColor(themeColor); }], as a function
    of the argument and of the colour the page holds. *)
Definition handler (themeColor : string) (current : string) : string :=
  themeColor.

(** The two places the page uses the colour: the
    [--copilot-kit-primary-color] property of [main] and the background of
    [YourMainContent]. *)
Record Styles := mkStyles {
  primary_color : string;
  backgroundColor : string
}.

Definition styles (themeColor : string) : Styles :=
  mkStyles themeColor themeColor.

(** The colour after the action was called with each of [calls] in turn. *)
Definition after_calls (calls : list string) : string :=
  foldl (λ current themeColor, handler themeColor current)
        initialThemeColor calls.

End CopilotKitPage.

(** ** Reading the renders *)

(** The value an input, a text area or a select displays. *)
Definition element_value (el : Element) : option string :=
  match el with
  | Input _ value _ => Some value
  | TextArea value _ => Some value
  | Select value _ _ => Some value
  | _ => None
  end.

(** The topics of the cards of a rendering, in order. *)
Definition card_topics (view : list Element) : list Topic.t :=
  omap (λ el, match el with Card topic _ => Some topic | _ => None end) view.

(** The [setState] snapshots of a handler, in order. *)
Definition snapshots (es : list Effect) : list DevRelAgentState :=
  omap (λ e, match e with SetState s => Some s | Respond _ => None end) es.

(** ** The seven editable fields *)

Inductive EditField :=
| E_repo_url | E_start_date
| E_channel | E_title | E_summary | E_content | E_type.

Global Instance EditField_eq_dec : EqDecision EditField.
Proof. solve_decision. Defined.

(** The action whose render holds the element that edits a field, and the
    position of that element in the render. *)
Definition edit_target (f : EditField) : string :=
  match f with
  | E_repo_url => "set_github_repo"
  | E_start_date => "set_date_range"
  | _ => "confirm_content"
  end.

Definition edit_position (f : EditField) : nat :=
  match f with
  | E_repo_url => 1
  | E_start_date => 2
  | E_channel => 2
  | E_title => 4
  | E_summary => 6
  | E_content => 8
  | E_type => 10
  end.

(** The field of the document an editable field stands for. *)
Definition edit_field (f : EditField) : Field :=
  match f with
  | E_repo_url => F_repo_url
  | E_start_date => F_start_date
  | E_channel => F_channel
  | E_title => F_title
  | E_summary => F_summary
  | E_content => F_content
  | E_type => F_type
  end.

(** The values the element of a field can change to: one of the options
    for the two selects, any string for the others. *)
Definition accepts (f : EditField) (v : string) : bool :=
  match f with
  | E_channel => bool_decide (v ∈ channel_options)
  | E_type => bool_decide (v ∈ type_options)
  | _ => true
  end.

(** The interaction that changes the element of a field to [v], on a render
    that was given the props [p]. *)
Definition edit (f : EditField) (v : string) (p : Props.t) : Interaction :=
  mkInteraction (edit_target f) p (edit_position f) (Change v).

(** The positions of the date input and of the Submit button in the
    [set_date_range] render. *)
Definition date_input : nat := 2.
Definition date_submit : nat := 3.

(** The selected topic, if any, is one of the topics. *)
Definition selected_from_topics (s : DevRelAgentState) : Prop :=
  ∀ topic, selected_topic s = Some topic → topic ∈ topics s.

(** The document after the element of a field has changed to [v]: the
    snapshot its [onChange] passes to [setState]. *)
Definition edited (f : EditField) (v : string) (s : DevRelAgentState)
  : DevRelAgentState :=
  match f with
  | E_repo_url => with_repo_url v s
  | E_start_date => with_start_date v s
  | E_channel =>
      with_content_record (ContentRecord.with_channel v (content_record s)) s
  | E_title =>
      with_content_record (ContentRecord.with_title v (content_record s)) s
  | E_summary =>
      with_content_record (ContentRecord.with_summary v (content_record s)) s
  | E_content =>
      with_content_record (ContentRecord.with_content v (content_record s)) s
  | E_type =>
      with_content_record (ContentRecord.with_type v (content_record s)) s
  end.

(** * Properties *)

(** ** Basic facts about the model *)

(** [get] reads every field: two documents with the same fields are equal. *)
Lemma state_ext (s s' : DevRelAgentState) :
  (∀ f, get f s = get f s') → s = s'.
Proof.
  intros H.
  destruct s as [r d t sel dr [c1 c2 c3 c4 c5] st er ck ms].
  destruct s' as [r' d' t' sel' dr' [c1' c2' c3' c4' c5'] st' er' ck' ms'].
  pose proof (H F_repo_url) as ?; pose proof (H F_start_date) as ?;
  pose proof (H F_topics) as ?; pose proof (H F_selected_topic) as ?;
  pose proof (H F_content_drafts) as ?; pose proof (H F_channel) as ?;
  pose proof (H F_title) as ?; pose proof (H F_summary) as ?;
  pose proof (H F_content) as ?; pose proof (H F_type) as ?;
  pose proof (H F_status) as ?; pose proof (H F_error) as ?;
  pose proof (H F_copilotkit) as ?; pose proof (H F_messages) as ?.
  simpl in *. congruence.
Qed.

Lemma or_else_empty (s : string) : or_else s "" = s.
Proof. unfold or_else, truthy_string. by case_decide. Qed.

Lemma truthy_Some (o : option string) :
  truthy o = true ↔ ∃ s, o = Some s ∧ s ≠ "".
Proof.
  destruct o as [s|]; simpl; unfold truthy_string.
  - case_decide; split; try done.
    + intros (s' & [= <-] & Hne). done.
    + intros _. by exists s.
  - split; [done | by intros (s & ? & _)].
Qed.

Lemma call_respond_available (p : Props.t) (v : JsVal) :
  Props.respond p = true → call_respond p v = [Respond v].
Proof. unfold call_respond. by intros ->. Qed.

Lemma props_of_executing (g : Gate) :
  gate_status g = executing →
  Props.respond (props_of g) = true ∧ not_executing (props_of g) = false.
Proof.
  intros H. unfold props_of, not_executing. simpl. rewrite H.
  split; [by apply bool_decide_eq_true | by case_decide].
Qed.

Lemma props_of_terminal (g : Gate) :
  gate_status g ≠ executing →
  Props.respond (props_of g) = false ∧ not_executing (props_of g) = true.
Proof.
  intros H. unfold props_of, not_executing. simpl.
  split; [by apply bool_decide_eq_false | by case_decide].
Qed.

(** ** The renders, position by position *)

Lemma select_topic_card (state : DevRelAgentState) (p : Props.t)
  (idx : nat) (topic : Topic.t) :
  topics state !! idx = Some topic →
  Action.renderAndWaitForResponse (select_topic state) p !! card_position idx
  = Some (topic_card state p idx topic).
Proof.
  intros H. unfold card_position. simpl.
  rewrite lookup_app_l.
  - rewrite list_lookup_imap, H. done.
  - rewrite length_imap. by eapply lookup_lt_Some.
Qed.

(** The elements of the [select_topic] render: the two texts on top, one
    card per topic, and the waiting message when there is no topic. *)
Lemma select_topic_element (state : DevRelAgentState) (p : Props.t)
  (pos : nat) (el : Element) :
  Action.renderAndWaitForResponse (select_topic state) p !! pos = Some el →
  (∃ text, el = Heading text ∨ el = Paragraph text)
  ∨ (∃ idx topic, pos = card_position idx
                  ∧ topics state !! idx = Some topic
                  ∧ el = topic_card state p idx topic).
Proof.
  simpl. destruct pos as [|[|idx]]; simpl.
  - intros [= <-]. left. eauto.
  - intros [= <-]. left. eauto.
  - intros H. apply lookup_app_Some in H as [H | [_ H]].
    + rewrite list_lookup_imap in H.
      destruct (topics state !! idx) as [topic|] eqn:E; [|done].
      injection H as <-. right. by exists idx, topic.
    + case_decide; [|by rewrite lookup_nil in H].
      apply list_elem_of_lookup_2 in H. apply list_elem_of_singleton in H.
      left. eauto.
Qed.

(** Without topics, the render is the two texts and the waiting message. *)
Lemma select_topic_empty (state : DevRelAgentState) (p : Props.t) :
  topics state = [] →
  Action.renderAndWaitForResponse (select_topic state) p
  = [ Heading "Select Content Topic";
      Paragraph "Choose a topic to generate content for";
      Paragraph "No topics generated yet. Please wait..." ].
Proof. intros H. simpl. by rewrite H. Qed.

(** ** Every handler call of the page *)

Lemma view_of_cases (state : DevRelAgentState) (name : string) (p : Props.t) :
  (name = "set_github_repo"
   ∧ view_of state name p
     = Action.renderAndWaitForResponse (set_github_repo state) p)
  ∨ (name = "set_date_range"
     ∧ view_of state name p
       = Action.renderAndWaitForResponse (set_date_range state) p)
  ∨ (name = "select_topic"
     ∧ view_of state name p
       = Action.renderAndWaitForResponse (select_topic state) p)
  ∨ (name = "confirm_content"
     ∧ view_of state name p
       = Action.renderAndWaitForResponse (confirm_content state) p)
  ∨ view_of state name p = [].
Proof.
  unfold view_of, find_action. simpl.
  repeat (case_bool_decide; [subst; simpl in *; subst; tauto|]). tauto.
Qed.

Ltac elem_cases :=
  repeat match goal with
         | H : _ ∈ [] |- _ => by apply elem_of_nil in H
         | H : _ ∈ _ :: _ |- _ => apply elem_of_cons in H as [-> | H]
         end.

Ltac fixed_view pos ev :=
  let Hin := fresh "Hin" in
  unfold fire; simpl;
  do 14 (try (destruct pos as [|pos]; simpl));
  try (intros Hin; by apply elem_of_nil in Hin);
  destruct ev; simpl; try (intros Hin; by apply elem_of_nil in Hin);
  unfold edit_record, call_respond;
  repeat case_decide; repeat case_match;
  intros Hin; elem_cases; try by constructor.

Lemma fire_handler_call (state : DevRelAgentState) (name : string)
  (p : Props.t) (pos : nat) (ev : DomEvent) (e : Effect) :
  e ∈ fire (view_of state name p) pos ev → handler_call state name e.
Proof.
  destruct (view_of_cases state name p)
    as [[-> ->] | [[-> ->] | [[-> ->] | [[-> ->] | ->]]]].
  - fixed_view pos ev.
  - fixed_view pos ev.
  - unfold fire.
    destruct (_ !! pos) as [el|] eqn:E;
      [|intros Hin; by apply elem_of_nil in Hin].
    apply select_topic_element in E
      as [(text & [-> | ->]) | (idx & topic & -> & Hidx & ->)];
      destruct ev; simpl; try (intros Hin; by apply elem_of_nil in Hin).
    unfold call_respond. case_match; intros Hin; elem_cases;
      by econstructor.
  - fixed_view pos ev.
  - unfold fire. rewrite lookup_nil. intros Hin. by apply elem_of_nil in Hin.
Qed.

Lemma effects_of_handler_call (state : DevRelAgentState) (i : Interaction)
  (e : Effect) :
  e ∈ effects_of state i → handler_call state (target i) e.
Proof. apply fire_handler_call. Qed.

(** ** The registry *)

(** C7. The page registers exactly four actions, in this order and with
    these declared parameters: [set_github_repo] with one required string
    parameter [repo_url], [set_date_range] with one required string
    parameter [start_date], [select_topic] with one required number
    parameter [topic_index], and [confirm_content] with no parameter. *)
Theorem registry_is_the_four_stage_pipeline (state : DevRelAgentState) :
  map (λ a, (Action.name a,
             map (λ q, (Param.name q, Param.type q, Param.required q))
                 (Action.parameters a)))
      (registered_actions state)
  = [ ("set_github_repo", [ ("repo_url", "string", true) ]);
      ("set_date_range", [ ("start_date", "string", true) ]);
      ("select_topic", [ ("topic_index", "number", true) ]);
      ("confirm_content", []) ].
Proof. reflexivity. Qed.

(** ** The status display *)

Lemma sample_status_line (sample : SamplePage.AgentState) (s : string) :
  SamplePage.StatusLine s ∈ SamplePage.render sample
  ↔ SamplePage.status sample = Some s ∧ s ≠ "".
Proof.
  unfold SamplePage.render. rewrite !elem_of_app. split.
  - intros [Hin | [Hin | Hin]].
    + destruct (SamplePage.status sample) as [st|]; simpl in Hin;
        [|by apply elem_of_nil in Hin].
      unfold truthy_string in Hin.
      case_decide as Hne; [by apply elem_of_nil in Hin|].
      apply list_elem_of_singleton in Hin as [= ->]. done.
    + destruct (truthy (SamplePage.error sample));
        [apply list_elem_of_singleton in Hin | apply elem_of_nil in Hin];
        done.
    + destruct (SamplePage.content_record sample);
        [apply list_elem_of_singleton in Hin | apply elem_of_nil in Hin];
        done.
  - intros [Hs Hne]. left. rewrite Hs. simpl. unfold truthy_string.
    case_decide; [done|]. by apply list_elem_of_singleton.
Qed.

Lemma sample_error_line (sample : SamplePage.AgentState) (e : string) :
  SamplePage.ErrorLine e ∈ SamplePage.render sample
  ↔ SamplePage.error sample = Some e ∧ e ≠ "".
Proof.
  unfold SamplePage.render. rewrite !elem_of_app. split.
  - intros [Hin | [Hin | Hin]].
    + destruct (truthy (SamplePage.status sample));
        [apply list_elem_of_singleton in Hin | apply elem_of_nil in Hin];
        done.
    + destruct (SamplePage.error sample) as [er|]; simpl in Hin;
        [|by apply elem_of_nil in Hin].
      unfold truthy_string in Hin.
      case_decide as Hne; [by apply elem_of_nil in Hin|].
      apply list_elem_of_singleton in Hin as [= ->]. done.
    + destruct (SamplePage.content_record sample);
        [apply list_elem_of_singleton in Hin | apply elem_of_nil in Hin];
        done.
  - intros [He Hne]. right; left. rewrite He. simpl. unfold truthy_string.
    case_decide; [done|]. by apply list_elem_of_singleton.
Qed.

(** C3, as the code has it. In [renderStatus] the status comes first: a
    non-empty status is what is shown, whatever [error] holds, and the
    error is shown only when there is no status to show. The state renderer
    of the sample page shows the two independently, each when it is
    non-empty. *)
Theorem status_shown_before_error
  (state : DevRelAgentState) (sample : SamplePage.AgentState) :
  (∀ s, status state = Some s → s ≠ "" →
        renderStatus state = Some (StatusBox s))
  ∧ (∀ e, truthy (status state) = false → error state = Some e → e ≠ "" →
          renderStatus state = Some (ErrorBox ("Error: " +:+ e)))
  ∧ (truthy (status state) = false → truthy (error state) = false →
     renderStatus state = None)
  ∧ (∀ s, SamplePage.StatusLine s ∈ SamplePage.render sample
          ↔ SamplePage.status sample = Some s ∧ s ≠ "")
  ∧ (∀ e, SamplePage.ErrorLine e ∈ SamplePage.render sample
          ↔ SamplePage.error sample = Some e ∧ e ≠ "").
Proof.
  split; [|split; [|split; [|split]]].
  - intros s Hs Hne. unfold renderStatus.
    assert (truthy (status state) = true) as ->
      by (apply truthy_Some; eauto).
    by rewrite Hs.
  - intros e Hs He Hne. unfold renderStatus. rewrite Hs.
    assert (truthy (error state) = true) as ->
      by (apply truthy_Some; eauto).
    by rewrite He.
  - intros Hs He. unfold renderStatus. by rewrite Hs, He.
  - apply sample_status_line.
  - apply sample_error_line.
Qed.

Lemma status_shown_before_error_witness :
  renderStatus status_and_error = Some (StatusBox "Analyzing repository...")
  ∧ SamplePage.ErrorLine "GitHub API rate limit"
    ∈ SamplePage.render sample_status_and_error.
Proof.
  destruct (status_shown_before_error status_and_error sample_status_and_error)
    as (Hstatus & _ & _ & _ & Herror).
  split.
  - apply Hstatus; [reflexivity | discriminate].
  - apply Herror. split; [reflexivity | discriminate].
Defined.

(** C3, as stated, fails: with a status and an error both set,
    [renderStatus] shows the status and not the error, and the sample page
    shows the status next to the error. *)
Lemma status_shown_while_error_set :
  truthy (error status_and_error) = true
  ∧ renderStatus status_and_error = Some (StatusBox "Analyzing repository...")
  ∧ truthy (SamplePage.error sample_status_and_error) = true
  ∧ SamplePage.render sample_status_and_error
    = [ SamplePage.StatusLine "Analyzing repository...";
        SamplePage.ErrorLine "GitHub API rate limit" ].
Proof. repeat split. Qed.

(** ** The repository gate *)

(** C5, as the code has it. The [set_github_repo] render checks nothing
    about the URL: once the human has typed a string into the input, the
    [repo_url] of the state is that string, and Submit on the pending gate
    resolves it with that same string, character for character, and leaves
    the state as it is. *)
Theorem submit_resolves_with_entered_url (c : Client) (v : string) :
  gate_action (gate c) = "set_github_repo" →
  gate_status (gate c) = executing →
  let typed := act c repo_input (Change v) in
  let submitted := act typed repo_submit Click in
  repo_url (agent_state typed) = v
  ∧ gate typed = gate c
  ∧ agent_state submitted = agent_state typed
  ∧ gate submitted = mkGate "set_github_repo" complete (Some (JStr v)).
Proof.
  destruct c as [s [name st result]]. simpl. intros -> ->.
  repeat split.
Qed.

Lemma submit_resolves_with_entered_url_witness :
  let c := mkClient initialState (pending "set_github_repo") in
  let submitted :=
    act (act c repo_input (Change "https://github.com/acme/widget"))
        repo_submit Click in
  repo_url (agent_state submitted) = "https://github.com/acme/widget"
  ∧ gate_result (gate submitted)
    = Some (JStr "https://github.com/acme/widget").
Proof.
  intros c submitted.
  destruct (submit_resolves_with_entered_url
              c "https://github.com/acme/widget" eq_refl eq_refl)
    as (Htyped & _ & Hstate & Hgate).
  split.
  - unfold submitted. rewrite Hstate. exact Htyped.
  - unfold submitted. rewrite Hgate. reflexivity.
Defined.

(** C5, as stated, fails: Submit on the initial state resolves the pending
    gate with the empty string. *)
Lemma empty_url_resolves_gate :
  let c := mkClient initialState (pending "set_github_repo") in
  repo_url (agent_state c) = ""
  ∧ gate (act c repo_submit Click)
    = mkGate "set_github_repo" complete (Some (JStr "")).
Proof. split; reflexivity. Qed.

(** ** The topic gate *)

(** Every response the [select_topic] render can give is the index of one
    of the topics it was rendered with. *)
Lemma select_topic_responses_in_range (state : DevRelAgentState)
  (p : Props.t) (pos : nat) (ev : DomEvent) (v : JsVal) :
  Respond v ∈ fire (view_of state "select_topic" p) pos ev →
  ∃ i, v = JNum (Z.of_nat i) ∧ i < length (topics state).
Proof.
  intros Hin. apply fire_handler_call in Hin.
  inversion Hin as [| | | | |idx topic Hidx| | | | | | | |]; subst.
  exists idx. split; [done | by eapply lookup_lt_Some].
Qed.

(** C1, as the code has it. A click on the card of index [idx] of a
    [select_topic] rendering, [idx] being within the topics the rendering
    was made from, replaces the held state by the rendered state with
    [selected_topic] set to its topic of index [idx], and resolves the
    pending gate with [idx]; when the rendering is of the state the client
    holds, that topic is [topics[idx]] of the current state. The rendering
    offers no response outside the indices of its topics, and nothing is
    checked when the gate resolves. *)
Theorem topic_click_selects_rendered_topic
  (rendered : DevRelAgentState) (c : Client) (idx : nat) (topic : Topic.t) :
  gate_action (gate c) = "select_topic" →
  gate_status (gate c) = executing →
  topics rendered !! idx = Some topic →
  let c' := deliver rendered (props_of (gate c)) c (card_position idx) Click in
  agent_state c' = with_selected_topic (Some topic) rendered
  ∧ gate c' = mkGate "select_topic" complete (Some (JNum (Z.of_nat idx)))
  ∧ (rendered = agent_state c →
     selected_topic (agent_state c') = topics (agent_state c) !! idx)
  ∧ (∀ p pos ev v,
       Respond v ∈ fire (view_of rendered "select_topic" p) pos ev →
       ∃ i, v = JNum (Z.of_nat i) ∧ i < length (topics rendered)).
Proof.
  destruct c as [s [name st result]]. simpl. intros -> -> Hidx.
  unfold deliver, fire. simpl gate_action.
  change (view_of rendered "select_topic" ?p)
    with (Action.renderAndWaitForResponse (select_topic rendered) p).
  rewrite (select_topic_card _ _ _ _ Hidx). simpl.
  repeat split.
  - intros ->. simpl. by rewrite Hidx.
  - apply select_topic_responses_in_range.
Qed.

Lemma topic_click_selects_rendered_topic_witness :
  let c := mkClient (with_topics [topic0; topic1]) (pending "select_topic") in
  selected_topic (agent_state (act c (card_position 1) Click)) = Some topic1
  ∧ gate_result (gate (act c (card_position 1) Click)) = Some (JNum 1).
Proof.
  intros c.
  destruct (topic_click_selects_rendered_topic
              (agent_state c) c 1 topic1 eq_refl eq_refl eq_refl)
    as (Hstate & Hgate & _).
  unfold act. split.
  - rewrite Hstate. reflexivity.
  - rewrite Hgate. reflexivity.
Defined.

(** C1, as stated, fails. The topics were [topic0; topic1] when the gate
    was rendered and are [topic0] when the click on the second card
    arrives: index 1 is outside the current topics, yet the gate resolves
    with 1 and [selected_topic] goes from null to [topic1]. *)
Lemma stale_topic_click_resolves :
  let rendered := with_topics [topic0; topic1] in
  let c := mkClient (with_topics [topic0]) (pending "select_topic") in
  let c' := deliver rendered (props_of (gate c)) c (card_position 1) Click in
  length (topics (agent_state c)) = 1
  ∧ selected_topic (agent_state c) = None
  ∧ selected_topic (agent_state c') = Some topic1
  ∧ gate c' = mkGate "select_topic" complete (Some (JNum 1)).
Proof. repeat split. Qed.

(** ** Gates that are no longer pending *)

(** The buttons of the three other gates are disabled unless the gate is
    executing: a click on their renders then calls nothing. *)
Lemma terminal_buttons_inert (state : DevRelAgentState) (name : string)
  (p : Props.t) (pos : nat) :
  name ≠ "select_topic" →
  not_executing p = true →
  fire (view_of state name p) pos Click = [].
Proof.
  intros Hname Hp.
  destruct (view_of_cases state name p)
    as [[-> ->] | [[-> ->] | [[-> ->] | [[-> ->] | ->]]]]; try done;
    unfold fire; simpl; rewrite ?Hp;
    do 14 (try (destruct pos as [|pos]; simpl)); done.
Qed.

(** C2 fails on the topic gate. The gate was resolved by a click on the
    first card; a later click on the second card of the same, now complete,
    gate leaves the gate as it was and changes [selected_topic] from
    [topic0] to [topic1]. *)
Lemma resolved_topic_gate_still_selects :
  let c0 := mkClient (with_topics [topic0; topic1]) (pending "select_topic") in
  let c1 := act c0 (card_position 0) Click in
  let c2 := act c1 (card_position 1) Click in
  gate c1 = mkGate "select_topic" complete (Some (JNum 0))
  ∧ selected_topic (agent_state c1) = Some topic0
  ∧ gate c2 = gate c1
  ∧ selected_topic (agent_state c2) = Some topic1.
Proof. repeat split. Qed.

(** ** Edits replace the whole document *)

Ltac frames_all_but :=
  first [ exists F_repo_url; intros g Hg; by destruct g
        | exists F_start_date; intros g Hg; by destruct g
        | exists F_selected_topic; intros g Hg; by destruct g
        | exists F_channel; intros g Hg; by destruct g
        | exists F_title; intros g Hg; by destruct g
        | exists F_summary; intros g Hg; by destruct g
        | exists F_content; intros g Hg; by destruct g
        | exists F_type; intros g Hg; by destruct g
        | exists F_copilotkit; intros g Hg; by destruct g ].

Ltac names_edit_field :=
  first [ by exists E_repo_url | by exists E_start_date
        | by exists E_title | by exists E_summary | by exists E_content
        | exists E_channel; repeat split; by apply bool_decide_eq_true
        | exists E_type; repeat split; by apply bool_decide_eq_true ].

Ltac change_view pos :=
  let Hcalls := fresh "Hcalls" in
  unfold fire; simpl;
  do 14 (try (destruct pos as [|pos]; simpl));
  try (intros Hcalls; by destruct Hcalls);
  unfold edit_record; try case_decide;
  try (intros Hcalls; by destruct Hcalls);
  intros _; names_edit_field.

(** C6. Each of the seven edit handlers of the page (the inputs of the
    repository and of the date, and the channel, title, summary, content
    and type elements of the content form), on a value its element can
    change to, makes exactly one [setState] call, with a whole document in
    which the edited field holds the new value and every other field is as
    in the state the render was made from. A value that is not among the
    options of a select is never delivered. There is no other edit
    handler: a change event that calls anything is one of these seven.
    And every other [setState] call of the page (the click handlers) also
    passes a whole document that differs from the rendered state in one
    field at most. *)
Theorem edit_replaces_whole_document (state : DevRelAgentState)
  (f : EditField) (v : string) (p : Props.t) :
  (accepts f v = true →
   ∃ snapshot,
     fire (view_of state (edit_target f) p) (edit_position f) (Change v)
     = [SetState snapshot]
     ∧ get (edit_field f) snapshot = VString v
     ∧ ∀ g, g ≠ edit_field f → get g snapshot = get g state)
  ∧ (accepts f v = false →
     fire (view_of state (edit_target f) p) (edit_position f) (Change v) = [])
  ∧ (∀ name pos,
       fire (view_of state name p) pos (Change v) ≠ [] →
       ∃ f', name = edit_target f' ∧ pos = edit_position f'
             ∧ accepts f' v = true)
  ∧ (∀ name pos ev snapshot,
       SetState snapshot ∈ fire (view_of state name p) pos ev →
       ∃ fld, ∀ g, g ≠ fld → get g snapshot = get g state).
Proof.
  split; [|split; [|split]].
  - intros Haccepts.
    destruct f; unfold fire; simpl; unfold edit_record;
      simpl in Haccepts; try apply bool_decide_eq_true in Haccepts;
      try (case_decide; [|done]);
      (eexists; split; [reflexivity|]; split; [reflexivity|];
       intros g Hg; by destruct g).
  - intros Hrejects.
    destruct f; simpl in Hrejects; try discriminate Hrejects;
      apply bool_decide_eq_false in Hrejects;
      unfold fire; simpl; by case_decide.
  - intros name pos.
    destruct (view_of_cases state name p)
      as [[-> ->] | [[-> ->] | [[-> ->] | [[-> ->] | ->]]]].
    + change_view pos.
    + change_view pos.
    + unfold fire. intros Hcalls. exfalso. apply Hcalls.
      destruct (_ !! pos) as [el|] eqn:E; [|done].
      by apply select_topic_element in E
        as [(text & [-> | ->]) | (idx & topic & -> & Hidx & ->)].
    + change_view pos.
    + unfold fire. rewrite lookup_nil. intros Hcalls. by destruct Hcalls.
  - intros name pos ev snapshot Hin.
    apply fire_handler_call in Hin.
    inversion Hin; subst; frames_all_but.
Qed.

Lemma edit_replaces_whole_document_witness :
  let state := with_topics [topic0] in
  let p := props_of (pending "confirm_content") in
  ∃ snapshot,
    fire (view_of state "confirm_content" p) 4 (Change "Widget 1.2 is out")
    = [SetState snapshot]
    ∧ get F_title snapshot = VString "Widget 1.2 is out"
    ∧ get F_topics snapshot = get F_topics state
    ∧ get F_repo_url snapshot = get F_repo_url state.
Proof.
  intros state p.
  destruct (edit_replaces_whole_document state E_title "Widget 1.2 is out" p)
    as [Hedit _].
  destruct (Hedit eq_refl) as (snapshot & Hes & Hf & Hframe).
  exists snapshot. split; [exact Hes|]. split; [exact Hf|].
  split; apply Hframe; discriminate.
Defined.

(** The seven edit handlers of the page, where the renders have them. *)
Lemma edit_handlers (state : DevRelAgentState) (p : Props.t) (v : string) :
  fire (view_of state "set_github_repo" p) 1 (Change v)
  = [SetState (with_repo_url v state)]
  ∧ fire (view_of state "set_date_range" p) 2 (Change v)
    = [SetState (with_start_date v state)]
  ∧ (v ∈ channel_options →
     fire (view_of state "confirm_content" p) 2 (Change v)
     = edit_record state ContentRecord.with_channel v)
  ∧ fire (view_of state "confirm_content" p) 4 (Change v)
    = edit_record state ContentRecord.with_title v
  ∧ fire (view_of state "confirm_content" p) 6 (Change v)
    = edit_record state ContentRecord.with_summary v
  ∧ fire (view_of state "confirm_content" p) 8 (Change v)
    = edit_record state ContentRecord.with_content v
  ∧ (v ∈ type_options →
     fire (view_of state "confirm_content" p) 10 (Change v)
     = edit_record state ContentRecord.with_type v).
Proof.
  repeat split; intros Hv; unfold fire; simpl; by case_decide.
Qed.

(** ** Invariants of sessions *)

(** A property of the state that every [setState] call of a handler keeps
    is kept by the handler. *)
Lemma commit_keeps (P : DevRelAgentState → Prop) (state : DevRelAgentState)
  (es : list Effect) :
  P state →
  (∀ snapshot, SetState snapshot ∈ es → P snapshot) →
  P (commit state es).
Proof.
  unfold commit. revert state.
  induction es as [|e es IH]; intros state Hstate Hes; [done|].
  simpl. apply IH.
  - destruct e as [snapshot|v]; [|done].
    apply Hes, elem_of_cons. by left.
  - intros snapshot Hin. apply Hes, elem_of_cons. by right.
Qed.

Lemma session_keeps (P : DevRelAgentState → Prop) :
  (∀ state name snapshot,
     P state → handler_call state name (SetState snapshot) → P snapshot) →
  ∀ steps state, P state → P (session state steps).
Proof.
  intros Hcall. unfold session.
  induction steps as [|i steps IH]; intros state Hstate; [done|].
  simpl. apply IH. unfold interact. apply commit_keeps; [done|].
  intros snapshot Hin. apply (Hcall state (target i)); [done|].
  by apply effects_of_handler_call.
Qed.

Lemma channel_option_ok (v : string) :
  v ∈ channel_options → v = "" ∨ v ∈ channels.
Proof.
  unfold channel_options, channels. rewrite !elem_of_cons.
  intros [-> | H]; [by left | by right].
Qed.

Lemma type_option_ok (v : string) :
  v ∈ type_options → v = "" ∨ v ∈ content_kinds.
Proof.
  unfold type_options, content_kinds. rewrite !elem_of_cons.
  intros [-> | H]; [by left | by right].
Qed.

(** C8. The initial state has an empty channel and an empty type, and from
    any state whose [content_record.channel] is empty or one of blog,
    twitter, linkedin, github and whose [content_record.type] is empty or
    one of blog_post, code_example, social_media, every sequence of human
    interactions with the renders leads to a state where this holds
    again. *)
Theorem record_enums_kept (state : DevRelAgentState)
  (steps : list Interaction) :
  record_enums_ok initialState
  ∧ (record_enums_ok state → record_enums_ok (session state steps)).
Proof.
  split; [split; by left |].
  revert steps state. apply session_keeps.
  intros state name snapshot [Hchannel Htype] Hcall.
  inversion Hcall as [ | | | | | |v Hv| | | |v Hv| | | ]; subst;
    split; simpl; try done.
  - by apply channel_option_ok.
  - by apply type_option_ok.
Qed.

Lemma record_enums_kept_witness :
  record_enums_ok
    (session initialState
       [ mkInteraction "confirm_content" (props_of (pending "confirm_content"))
                       2 (Change "twitter");
         mkInteraction "confirm_content" (props_of (pending "confirm_content"))
                       10 (Change "social_media");
         mkInteraction "confirm_content" (props_of (pending "confirm_content"))
                       4 (Change "Widget 1.2 is out") ]).
Proof.
  apply (record_enums_kept initialState).
  split; left; reflexivity.
Defined.

(** ** No topics, no selection *)

(** C9. While the state holds no topics, the [select_topic] render is the
    heading, the hint and the waiting message: no event on it calls
    anything, so the client holding that state can neither resolve the gate
    nor change the state through it; and no sequence of interactions with
    any of the renders gives the state a topic or a selected topic. *)
Theorem no_topics_nothing_to_select (state : DevRelAgentState) :
  topics state = [] →
  (∀ p, view_of state "select_topic" p
        = [ Heading "Select Content Topic";
            Paragraph "Choose a topic to generate content for";
            Paragraph "No topics generated yet. Please wait..." ])
  ∧ (∀ p pos ev, fire (view_of state "select_topic" p) pos ev = [])
  ∧ (∀ g pos ev, gate_action g = "select_topic" →
                 act (mkClient state g) pos ev = mkClient state g)
  ∧ (selected_topic state = None →
     ∀ steps, topics (session state steps) = []
              ∧ selected_topic (session state steps) = None).
Proof.
  intros Hempty.
  assert (∀ p pos ev, fire (view_of state "select_topic" p) pos ev = [])
    as Hnothing.
  { intros p pos ev.
    change (view_of state "select_topic" p)
      with (Action.renderAndWaitForResponse (select_topic state) p).
    rewrite select_topic_empty by done.
    unfold fire. by destruct pos as [|[|[|pos]]]. }
  split; [|split; [|split]].
  - intros p. by apply select_topic_empty.
  - exact Hnothing.
  - intros g pos ev Hg. unfold act, deliver. simpl.
    by rewrite Hg, Hnothing.
  - intros Hnull steps.
    apply (session_keeps (λ s, topics s = [] ∧ selected_topic s = None));
      [|done].
    intros s name snapshot [Htopics Hselected] Hcall.
    inversion Hcall as [ | | | |idx topic Hidx| | | | | | | | | ]; subst;
      try done.
    by rewrite Htopics in Hidx.
Qed.

Lemma no_topics_nothing_to_select_witness :
  act (mkClient initialState (pending "select_topic")) (card_position 0) Click
  = mkClient initialState (pending "select_topic").
Proof.
  destruct (no_topics_nothing_to_select initialState eq_refl)
    as (_ & _ & Hact & _).
  by apply Hact.
Defined.

(** ** The confirm gate *)

(** What an event on the [confirm_content] render can call: nothing that
    responds, or the response of Edit More alone, or the snapshot and the
    response of Save & Publish. *)
Lemma confirm_content_fire (state : DevRelAgentState) (p : Props.t)
  (pos : nat) (ev : DomEvent) :
  let es := fire (view_of state "confirm_content" p) pos ev in
  responses es = []
  ∨ es = [Respond (JStr "CANCEL")]
  ∨ es = [SetState (confirmed_snapshot state); Respond (JStr "CONFIRM")].
Proof.
  unfold fire. simpl.
  do 14 (try (destruct pos as [|pos]; simpl)); try (by left);
    destruct ev; simpl; try (by left);
    unfold edit_record, call_respond;
    repeat case_decide; repeat case_match; simpl; auto.
Qed.

(** The snapshot of Save & Publish differs from the state in [copilotkit]
    only, keeps its [actions], and its [metadata] is the old one with
    [confirmed] set to [true]. *)
Lemma confirmed_snapshot_frame (state : DevRelAgentState) :
  (∀ f, f ≠ F_copilotkit → get f (confirmed_snapshot state) = get f state)
  ∧ confirmationFlag (confirmed_snapshot state) = Some (JBool true)
  ∧ ∃ ck m,
      copilotkit (confirmed_snapshot state) = Some ck
      ∧ CopilotKit.actions ck = copilotkit state ≫= CopilotKit.actions
      ∧ CopilotKit.metadata ck = Some m
      ∧ ∀ k, k ≠ "confirmed" →
             m !! k = default ∅ (copilotkit state ≫= CopilotKit.metadata) !! k.
Proof.
  split; [|split].
  - intros f Hf. by destruct f.
  - unfold confirmationFlag. simpl. apply lookup_insert_eq.
  - eexists _, _. repeat split. intros k Hk. simpl.
    by rewrite lookup_insert_ne.
Qed.

(** C10. A handler of the [confirm_content] render that responds "CANCEL"
    calls nothing else, so it leaves the state alone; one that responds
    "CONFIRM" makes one [setState] call before, with a document that
    differs from the state in [copilotkit] only: [content_record] and every
    other field are unchanged, the [actions] under [copilotkit] are kept,
    and [metadata] is the old one with [confirmed] set to [true]. *)
Theorem confirm_buttons_frame (state : DevRelAgentState) (p : Props.t)
  (pos : nat) (ev : DomEvent) :
  let es := fire (view_of state "confirm_content" p) pos ev in
  (Respond (JStr "CANCEL") ∈ es →
   es = [Respond (JStr "CANCEL")] ∧ commit state es = state)
  ∧ (Respond (JStr "CONFIRM") ∈ es →
     es = [SetState (confirmed_snapshot state); Respond (JStr "CONFIRM")]
     ∧ commit state es = confirmed_snapshot state
     ∧ (∀ f, f ≠ F_copilotkit → get f (commit state es) = get f state)
     ∧ confirmationFlag (commit state es) = Some (JBool true)
     ∧ ∃ ck m,
         copilotkit (commit state es) = Some ck
         ∧ CopilotKit.actions ck = copilotkit state ≫= CopilotKit.actions
         ∧ CopilotKit.metadata ck = Some m
         ∧ ∀ k, k ≠ "confirmed" →
                m !! k
                = default ∅ (copilotkit state ≫= CopilotKit.metadata) !! k).
Proof.
  intros es.
  destruct (confirm_content_fire state p pos ev) as [Hnone | [Hes | Hes]];
    fold es in Hnone || fold es in Hes.
  - assert (∀ v, Respond v ∉ es) as Hno.
    { intros v Hin.
      assert (v ∈ responses es) as Hv
        by (apply list_elem_of_omap; by exists (Respond v)).
      rewrite Hnone in Hv. by apply elem_of_nil in Hv. }
    split; intros Hin; by apply Hno in Hin.
  - rewrite Hes. split; [done|].
    intros Hin. by apply list_elem_of_singleton in Hin.
  - rewrite Hes. split.
    + intros Hin. apply elem_of_cons in Hin as [? | Hin]; [done|].
      by apply list_elem_of_singleton in Hin.
    + intros _. split; [done|]. split; [done|].
      apply confirmed_snapshot_frame.
Qed.

Lemma confirm_buttons_frame_witness :
  let p := props_of (pending "confirm_content") in
  let state := with_topics [topic0] in
  commit state (fire (view_of state "confirm_content" p) edit_more Click) = state
  ∧ get F_content
        (commit state (fire (view_of state "confirm_content" p)
                          save_and_publish Click))
    = get F_content state
  ∧ confirmationFlag
      (commit state (fire (view_of state "confirm_content" p)
                          save_and_publish Click))
    = Some (JBool true).
Proof.
  intros p state.
  destruct (confirm_buttons_frame state p edit_more Click) as [Hcancel _].
  destruct (confirm_buttons_frame state p save_and_publish Click) as [_ Hconfirm].
  split; [|split].
  - apply Hcancel. apply elem_of_cons. by left.
  - apply Hconfirm; [|discriminate].
    apply elem_of_cons. right. apply elem_of_cons. by left.
  - apply Hconfirm. apply elem_of_cons. right. apply elem_of_cons. by left.
Defined.

(** C4. [confirm_content] declares no parameter; whatever its render
    responds is "CONFIRM" or "CANCEL"; Save & Publish on the pending gate
    resolves it with "CONFIRM" and leaves the confirmation flag [true] in
    the state; Edit More resolves it with "CANCEL" and leaves the state as
    it is; and the sequencer answers "CANCEL" by opening [confirm_content]
    again, "CONFIRM" by ending the pipeline. *)
Theorem confirm_gate_outcomes (c : Client) :
  gate_action (gate c) = "confirm_content" →
  gate_status (gate c) = executing →
  Action.parameters (confirm_content (agent_state c)) = []
  ∧ (∀ p pos ev v,
       Respond v
       ∈ fire (view_of (agent_state c) "confirm_content" p) pos ev →
       v = JStr "CONFIRM" ∨ v = JStr "CANCEL")
  ∧ (let c' := act c save_and_publish Click in
     gate_result (gate c') = Some (JStr "CONFIRM")
     ∧ confirmationFlag (agent_state c') = Some (JBool true))
  ∧ (let c' := act c edit_more Click in
     gate_result (gate c') = Some (JStr "CANCEL")
     ∧ agent_state c' = agent_state c)
  ∧ next_stage "confirm_content" (JStr "CANCEL") = AtGate "confirm_content"
  ∧ next_stage "confirm_content" (JStr "CONFIRM") = Finished.
Proof.
  destruct c as [s [name st result]]. simpl. intros -> ->.
  split; [done|]. split; [|split; [|split; [|done]]].
  - intros p pos ev v Hin. apply fire_handler_call in Hin.
    inversion Hin; auto.
  - split; [done|]. unfold confirmationFlag. simpl. apply lookup_insert_eq.
  - done.
Qed.

Lemma confirm_gate_outcomes_witness :
  let c := mkClient (with_topics [topic0]) (pending "confirm_content") in
  gate_result (gate (act c save_and_publish Click)) = Some (JStr "CONFIRM")
  ∧ confirmationFlag (agent_state (act c save_and_publish Click)) = Some (JBool true)
  ∧ gate_result (gate (act c edit_more Click)) = Some (JStr "CANCEL").
Proof.
  intros c.
  destruct (confirm_gate_outcomes c eq_refl eq_refl)
    as (_ & _ & [Hresult Hflag] & [Hcancel _] & _).
  split; [exact Hresult | split; [exact Hflag | exact Hcancel]].
Defined.

(** * Further properties of the page *)

(** ** The date gate *)

(** X1. The [set_date_range] render checks nothing about the date: once
    the date input has changed to a string, the [start_date] of the state
    is that string and no other field has changed, and Submit on the
    pending gate resolves it with that same string and leaves the state as
    it is. *)
Theorem date_submit_resolves_with_entered_date (c : Client) (v : string) :
  gate_action (gate c) = "set_date_range" →
  gate_status (gate c) = executing →
  let typed := act c date_input (Change v) in
  let submitted := act typed date_submit Click in
  start_date (agent_state typed) = v
  ∧ (∀ f, f ≠ F_start_date →
          get f (agent_state typed) = get f (agent_state c))
  ∧ gate typed = gate c
  ∧ agent_state submitted = agent_state typed
  ∧ gate submitted = mkGate "set_date_range" complete (Some (JStr v)).
Proof.
  destruct c as [s [name st result]]. simpl. intros -> ->.
  split; [done|]. split; [|done].
  intros f Hf. by destruct f.
Qed.

Lemma date_submit_resolves_with_entered_date_witness :
  let c := mkClient initialState (pending "set_date_range") in
  let submitted := act (act c date_input (Change "2024-03-01"))
                       date_submit Click in
  start_date (agent_state submitted) = "2024-03-01"
  ∧ gate_result (gate submitted) = Some (JStr "2024-03-01").
Proof.
  intros c submitted.
  destruct (date_submit_resolves_with_entered_date
              c "2024-03-01" eq_refl eq_refl)
    as (Htyped & _ & _ & Hstate & Hgate).
  split.
  - unfold submitted. rewrite Hstate. exact Htyped.
  - unfold submitted. rewrite Hgate. reflexivity.
Defined.

(** ** What the handlers respond, and when *)

(** X2. Whatever a render responds has the type its gate declares and comes
    from the state it was rendered with: the two Submit buttons respond the
    rendered [repo_url] and [start_date], a topic card the index of a
    rendered topic, and the confirm buttons one of the two sentinels. *)
Theorem responses_come_from_rendered_state (state : DevRelAgentState)
  (name : string) (p : Props.t) (pos : nat) (ev : DomEvent) (v : JsVal) :
  Respond v ∈ fire (view_of state name p) pos ev →
  (name = "set_github_repo" ∧ v = JStr (repo_url state))
  ∨ (name = "set_date_range" ∧ v = JStr (start_date state))
  ∨ (name = "select_topic"
     ∧ ∃ i topic, v = JNum (Z.of_nat i) ∧ topics state !! i = Some topic)
  ∨ (name = "confirm_content" ∧ (v = JStr "CONFIRM" ∨ v = JStr "CANCEL")).
Proof.
  intros Hin. apply fire_handler_call in Hin.
  inversion Hin; subst; eauto 10.
Qed.

Lemma responses_come_from_rendered_state_witness :
  let state := with_topics [topic0; topic1] in
  let p := props_of (pending "select_topic") in
  ∃ i topic, JNum 1 = JNum (Z.of_nat i) ∧ topics state !! i = Some topic.
Proof.
  intros state p.
  destruct (responses_come_from_rendered_state
              state "select_topic" p (card_position 1) Click (JNum 1))
    as [[Hname _] | [[Hname _] | [[_ Hidx] | [Hname _]]]];
    [ apply elem_of_cons; right; apply elem_of_cons; by left
    | discriminate Hname | discriminate Hname | exact Hidx
    | discriminate Hname ].
Defined.

Ltac shape_view pos ev :=
  unfold fire; simpl;
  do 14 (try (destruct pos as [|pos]; simpl)); try done;
  destruct ev; simpl; try done;
  unfold edit_record, call_respond;
  repeat case_decide; repeat case_match; simpl; try done.

(** X3. Every handler of the four renders makes at most one [setState]
    call and at most one [respond] call, and the [setState] call comes
    first. *)
Theorem handler_sets_then_responds (state : DevRelAgentState)
  (name : string) (p : Props.t) (pos : nat) (ev : DomEvent) :
  let es := fire (view_of state name p) pos ev in
  (length (snapshots es) ≤ 1)%nat
  ∧ (length (responses es) ≤ 1)%nat
  ∧ es = (SetState <$> snapshots es) ++ (Respond <$> responses es).
Proof.
  destruct (view_of_cases state name p)
    as [[-> ->] | [[-> ->] | [[-> ->] | [[-> ->] | ->]]]].
  - shape_view pos ev; repeat split; lia.
  - shape_view pos ev; repeat split; lia.
  - unfold fire.
    destruct (_ !! pos) as [el|] eqn:E; [|simpl; repeat split; lia].
    apply select_topic_element in E
      as [(text & [-> | ->]) | (idx & topic & -> & Hidx & ->)];
      destruct ev; simpl; try (repeat split; lia).
    unfold call_respond. case_match; simpl; repeat split; lia.
  - shape_view pos ev; repeat split; lia.
  - unfold fire. rewrite lookup_nil. simpl. repeat split; lia.
Qed.

Ltac elem_inv :=
  repeat match goal with
         | H : _ ∈ [] |- _ => by apply elem_of_nil in H
         | H : _ ∈ _ :: _ |- _ =>
             apply elem_of_cons in H as [H | H]; [simplify_eq |]
         end.

Ltac respond_view pos ev :=
  let Hin := fresh "Hin" in
  unfold fire; simpl;
  do 14 (try (destruct pos as [|pos]; simpl));
  try (intros Hin; by apply elem_of_nil in Hin);
  destruct ev; simpl; try (intros Hin; by apply elem_of_nil in Hin);
  unfold not_executing, edit_record, call_respond;
  repeat case_decide; repeat case_match;
  intros Hin; elem_inv; done.

(** X4. A render responds only if it was given a [respond] callback, and,
    but for the topic cards, only if its status is [executing]: the Submit,
    Edit More and Save & Publish buttons are disabled otherwise. *)
Theorem responds_only_with_callback (state : DevRelAgentState)
  (name : string) (p : Props.t) (pos : nat) (ev : DomEvent) (v : JsVal) :
  Respond v ∈ fire (view_of state name p) pos ev →
  Props.respond p = true
  ∧ (name ≠ "select_topic" → Props.status p = executing).
Proof.
  destruct (view_of_cases state name p)
    as [[-> ->] | [[-> ->] | [[-> ->] | [[-> ->] | ->]]]].
  - respond_view pos ev.
  - respond_view pos ev.
  - unfold fire.
    destruct (_ !! pos) as [el|] eqn:E;
      [|intros Hin; by apply elem_of_nil in Hin].
    apply select_topic_element in E
      as [(text & [-> | ->]) | (idx & topic & -> & Hidx & ->)];
      destruct ev; simpl; try (intros Hin; by apply elem_of_nil in Hin).
    unfold call_respond. case_match; intros Hin; elem_inv; done.
  - respond_view pos ev.
  - unfold fire. rewrite lookup_nil. intros Hin. by apply elem_of_nil in Hin.
Qed.

Lemma responds_only_with_callback_witness :
  Props.status (props_of (pending "confirm_content")) = executing.
Proof.
  refine (proj2 (responds_only_with_callback
                   initialState "confirm_content"
                   (props_of (pending "confirm_content"))
                   edit_more Click (JStr "CANCEL") _) _).
  - apply elem_of_cons. by left.
  - discriminate.
Defined.

(** X5. The edit handlers do not look at the props: an input, text area or
    select reacts to a change in the same way whatever the status of its
    gate and whether or not there is a [respond] callback, so the fields
    stay editable after the gate is resolved. *)
Theorem edits_ignore_gate_status (state : DevRelAgentState) (name : string)
  (p p' : Props.t) (pos : nat) (v : string) :
  fire (view_of state name p) pos (Change v)
  = fire (view_of state name p') pos (Change v).
Proof.
  destruct (view_of_cases state name p)
    as [[-> ->] | [[-> ->] | [[-> ->] | [[-> ->] | Hnone]]]].
  - unfold fire; simpl; by do 14 (try (destruct pos as [|pos]; simpl)).
  - unfold fire; simpl; by do 14 (try (destruct pos as [|pos]; simpl)).
  - change (view_of state "select_topic" p')
      with (Action.renderAndWaitForResponse (select_topic state) p').
    unfold fire.
    destruct (Action.renderAndWaitForResponse (select_topic state) p !! pos)
      as [el|] eqn:E;
    destruct (Action.renderAndWaitForResponse (select_topic state) p' !! pos)
      as [el'|] eqn:E'; try done.
    + apply select_topic_element in E
        as [(text & [-> | ->]) | (idx & topic & -> & Hidx & ->)];
      apply select_topic_element in E'
        as [(text' & [-> | ->]) | (idx' & topic' & ? & Hidx' & ->)]; done.
    + by apply select_topic_element in E
        as [(text & [-> | ->]) | (idx & topic & -> & Hidx & ->)].
    + by apply select_topic_element in E'
        as [(text' & [-> | ->]) | (idx' & topic' & ? & Hidx' & ->)].
  - unfold fire; simpl; by do 14 (try (destruct pos as [|pos]; simpl)).
  - destruct (view_of_cases state name p')
      as [[-> Hv] | [[-> Hv] | [[-> Hv] | [[-> Hv] | ->]]]];
      try (by rewrite Hnone); discriminate Hnone.
Qed.

(** ** Editing the fields *)

(** The calls of the element of a field, read off the renders. *)
Lemma effects_of_edit (state : DevRelAgentState) (f : EditField)
  (v : string) (p : Props.t) :
  effects_of state (edit f v p)
  = if accepts f v then [SetState (edited f v state)] else [].
Proof.
  destruct f; unfold effects_of, fire; simpl; try done;
    unfold edit_record; by case_bool_decide; case_decide.
Qed.

Lemma interact_edit (state : DevRelAgentState) (f : EditField)
  (v : string) (p : Props.t) :
  interact state (edit f v p)
  = if accepts f v then edited f v state else state.
Proof.
  unfold interact. rewrite effects_of_edit. by destruct (accepts f v).
Qed.

(** X6. Each of the seven inputs is controlled by the field it edits: after
    it has changed to a value it accepts, the field holds that value and
    the next render displays it in the same element; a value that is not
    among the options of a select changes nothing. *)
Theorem edit_shows_in_next_render (state : DevRelAgentState)
  (f : EditField) (v : string) (p p' : Props.t) :
  let state' := interact state (edit f v p) in
  (accepts f v = true →
   get (edit_field f) state' = VString v
   ∧ view_of state' (edit_target f) p' !! edit_position f ≫= element_value
     = Some v)
  ∧ (accepts f v = false → state' = state).
Proof.
  simpl. rewrite interact_edit. split; intros ->; [|done].
  split; [by destruct f|].
  destruct f; simpl; by rewrite or_else_empty.
Qed.

Lemma edit_shows_in_next_render_witness :
  let p := props_of (pending "confirm_content") in
  let state' := interact initialState (edit E_channel "linkedin" p) in
  get F_channel state' = VString "linkedin"
  ∧ interact initialState (edit E_channel "LinkedIn" p) = initialState.
Proof.
  intros p state'. split.
  - apply (edit_shows_in_next_render initialState E_channel "linkedin" p p).
    reflexivity.
  - apply (edit_shows_in_next_render initialState E_channel "LinkedIn" p p).
    reflexivity.
Defined.

(** X7. Edits of two different fields, each made on the render of the
    state the other left, commute; two edits of the same field leave the
    value of the second. *)
Theorem edits_commute (state : DevRelAgentState) (f g : EditField)
  (v w : string) (p q : Props.t) :
  (f ≠ g →
   interact (interact state (edit f v p)) (edit g w q)
   = interact (interact state (edit g w q)) (edit f v p))
  ∧ (accepts f w = true →
     interact (interact state (edit f v p)) (edit f w q)
     = interact state (edit f w q)).
Proof.
  rewrite !interact_edit. split.
  - intros Hfg.
    destruct (accepts f v), (accepts g w); try done.
    by destruct f, g.
  - intros ->. destruct (accepts f v); [|done]. by destruct f.
Qed.

Lemma edits_commute_witness :
  let p := props_of (pending "confirm_content") in
  interact (interact initialState (edit E_title "Widget 1.2" p))
           (edit E_type "blog_post" p)
  = interact (interact initialState (edit E_type "blog_post" p))
             (edit E_title "Widget 1.2" p)
  ∧ interact (interact initialState (edit E_title "Widget 1.1" p))
             (edit E_title "Widget 1.2" p)
    = interact initialState (edit E_title "Widget 1.2" p).
Proof.
  intros p. split.
  - apply (edits_commute initialState E_title E_type). discriminate.
  - apply (edits_commute initialState E_title E_title). reflexivity.
Defined.

(** X8. Two edits of different fields made on the same rendering do not
    add up: the handlers hold the state of that rendering, the second
    snapshot replaces the first, and the field edited first is back to the
    value the rendering had. *)
Theorem second_edit_of_a_rendering_wins (rendered : DevRelAgentState)
  (c : Client) (f g : EditField) (v w : string) (p : Props.t) :
  f ≠ g →
  accepts f v = true →
  accepts g w = true →
  let c1 := perform_all c (effects_of rendered (edit f v p)) in
  let c2 := perform_all c1 (effects_of rendered (edit g w p)) in
  get (edit_field f) (agent_state c1) = VString v
  ∧ agent_state c2 = interact rendered (edit g w p)
  ∧ get (edit_field g) (agent_state c2) = VString w
  ∧ get (edit_field f) (agent_state c2) = get (edit_field f) rendered.
Proof.
  intros Hfg Hv Hw. simpl.
  rewrite interact_edit, !effects_of_edit, Hv, Hw. simpl.
  repeat split; by destruct f, g.
Qed.

Lemma second_edit_of_a_rendering_wins_witness :
  let p := props_of (pending "confirm_content") in
  let c := mkClient initialState (pending "confirm_content") in
  let c1 := perform_all c (effects_of initialState (edit E_title "Widget" p)) in
  let c2 :=
    perform_all c1 (effects_of initialState (edit E_summary "Out now" p)) in
  get F_title (agent_state c1) = VString "Widget"
  ∧ get F_title (agent_state c2) = VString "".
Proof.
  intros p c c1 c2.
  destruct (second_edit_of_a_rendering_wins
              initialState c E_title E_summary "Widget" "Out now" p)
    as (Hfirst & _ & _ & Hlost); [discriminate | reflexivity | reflexivity |].
  split; [exact Hfirst | exact Hlost].
Defined.

(** ** What sessions keep *)

(** X9. The client only ever selects a topic out of the topics of the
    state: if the selected topic, if any, is one of the topics, it still is
    after any sequence of interactions. *)
Theorem selection_stays_among_topics (state : DevRelAgentState)
  (steps : list Interaction) :
  selected_from_topics state →
  selected_from_topics (session state steps).
Proof.
  revert steps state. apply session_keeps.
  intros state name snapshot Hsel Hcall.
  inversion Hcall as [ | | | |idx topic Hidx| | | | | | | | | ]; subst;
    try exact Hsel.
  intros t [= <-]. simpl. by eapply list_elem_of_lookup_2.
Qed.

Lemma selection_stays_among_topics_witness :
  selected_from_topics
    (session (with_topics [topic0; topic1])
       [ mkInteraction "select_topic" (props_of (pending "select_topic"))
                       (card_position 1) Click;
         mkInteraction "confirm_content" (props_of (pending "confirm_content"))
                       4 (Change "Fix login redirect") ]).
Proof.
  apply selection_stays_among_topics.
  intros topic Hnone. discriminate Hnone.
Defined.

(** X10. No handler of the page writes the topics, the content drafts, the
    status, the error or the messages: after any sequence of interactions
    they are what they were. *)
Theorem session_leaves_agent_fields (state : DevRelAgentState)
  (steps : list Interaction) :
  topics (session state steps) = topics state
  ∧ content_drafts (session state steps) = content_drafts state
  ∧ status (session state steps) = status state
  ∧ error (session state steps) = error state
  ∧ messages (session state steps) = messages state.
Proof.
  apply (session_keeps
           (λ s, topics s = topics state
                 ∧ content_drafts s = content_drafts state
                 ∧ status s = status state
                 ∧ error s = error state
                 ∧ messages s = messages state)); [|done].
  intros s name snapshot Hs Hcall.
  inversion Hcall; subst; exact Hs.
Qed.

(** Save & Publish on a state that is already confirmed changes nothing. *)
Lemma confirmed_snapshot_again (state : DevRelAgentState) :
  confirmationFlag state = Some (JBool true) →
  confirmed_snapshot state = state.
Proof.
  unfold confirmationFlag, confirmed_snapshot.
  destruct state as [r d t sel dr cr st er [[acts [m|]]|] ms]; simpl;
    try done.
  intros Hflag. by rewrite insert_id.
Qed.

(** X11. The confirmation flag is never taken back: once
    [copilotkit.metadata.confirmed] is [true] it is [true] after any
    sequence of interactions, and a further Save & Publish leaves the
    whole state as it is. *)
Theorem confirmation_is_kept (state : DevRelAgentState)
  (steps : list Interaction) :
  confirmationFlag state = Some (JBool true) →
  confirmationFlag (session state steps) = Some (JBool true)
  ∧ confirmed_snapshot state = state.
Proof.
  intros Hflag. split; [|by apply confirmed_snapshot_again].
  revert steps state Hflag. apply session_keeps.
  intros state name snapshot Hflag Hcall.
  inversion Hcall; subst; try exact Hflag.
  apply confirmed_snapshot_frame.
Qed.

Lemma confirmation_is_kept_witness :
  let confirmed := confirmed_snapshot (with_topics [topic0]) in
  confirmationFlag
    (session confirmed
       [ edit E_title "Widget 1.2" (props_of (pending "confirm_content"));
         mkInteraction "confirm_content" (props_of (pending "confirm_content"))
                       save_and_publish Click ])
  = Some (JBool true).
Proof.
  intros confirmed.
  apply (confirmation_is_kept confirmed).
  apply confirmed_snapshot_frame.
Defined.

(** X12. Only the [confirm_content] render writes [copilotkit]: a sequence
    of interactions none of which is with that render leaves [copilotkit],
    and with it the confirmation flag, as it was. *)
Theorem only_confirm_content_writes_copilotkit (state : DevRelAgentState)
  (steps : list Interaction) :
  Forall (λ i, target i ≠ "confirm_content") steps →
  copilotkit (session state steps) = copilotkit state
  ∧ confirmationFlag (session state steps) = confirmationFlag state.
Proof.
  intros Hsteps.
  assert (copilotkit (session state steps) = copilotkit state) as Hsame.
  { revert state. unfold session.
    induction Hsteps as [|i steps Hi Hsteps IH]; intros state; [done|].
    simpl. rewrite IH. unfold interact.
    apply (commit_keeps (λ s, copilotkit s = copilotkit state)); [done|].
    intros snapshot Hin. apply effects_of_handler_call in Hin.
    inversion Hin; subst; try done; congruence. }
  split; [done|]. unfold confirmationFlag. by rewrite Hsame.
Qed.

Lemma only_confirm_content_writes_copilotkit_witness :
  confirmationFlag
    (session (with_topics [topic0])
       [ edit E_repo_url "https://github.com/acme/gadget"
              (props_of (pending "set_github_repo"));
         mkInteraction "select_topic" (props_of (pending "select_topic"))
                       (card_position 0) Click ])
  = None.
Proof.
  refine (eq_trans
            (proj2 (only_confirm_content_writes_copilotkit
                      (with_topics [topic0]) _ _)) _).
  - repeat constructor; discriminate.
  - reflexivity.
Defined.

(** ** The topic cards *)

Lemma card_topics_imap (h : nat → Topic.t → Element) (ts : list Topic.t) :
  (∀ i topic, ∃ handler, h i topic = Card topic handler) →
  card_topics (imap h ts) = ts.
Proof.
  revert h. induction ts as [|topic ts IH]; intros h Hcard; [done|].
  rewrite imap_cons. unfold card_topics. simpl.
  destruct (Hcard 0 topic) as [handler ->]. f_equal.
  apply IH. intros i t. apply Hcard.
Qed.

(** X13. The [select_topic] render shows one card per topic of the state,
    in the order of [topics], and the waiting message exactly when there is
    no topic. *)
Theorem cards_are_the_topics (state : DevRelAgentState) (p : Props.t) :
  card_topics (view_of state "select_topic" p) = topics state
  ∧ (Paragraph "No topics generated yet. Please wait..."
     ∈ view_of state "select_topic" p
     ↔ topics state = []).
Proof.
  change (view_of state "select_topic" p)
    with (Action.renderAndWaitForResponse (select_topic state) p).
  split.
  - simpl. unfold card_topics. simpl. rewrite omap_app.
    fold (card_topics (imap (topic_card state p) (topics state))).
    rewrite card_topics_imap by (intros i topic; by eexists).
    case_decide; simpl; by rewrite app_nil_r.
  - split.
    + simpl. rewrite !elem_of_cons, elem_of_app.
      intros [Heq | [Heq | [Hin | Hin]]]; try discriminate Heq.
      * apply elem_of_lookup_imap in Hin as (i & topic & Heq & _).
        discriminate Heq.
      * case_decide as Hlen; [by apply nil_length_inv|].
        by apply elem_of_nil in Hin.
    + intros Hempty. rewrite select_topic_empty by done.
      rewrite !elem_of_cons. auto.
Qed.

(** ** The content preview *)

(** X14. The preview of the content record is shown exactly when the
    content is not empty; its body is the content and its summary the
    summary, and its heading is the title, or "Untitled" when the title is
    empty, so it is never empty. *)
Theorem preview_follows_record (state : DevRelAgentState) :
  let r := content_record state in
  (content_preview state = None ↔ ContentRecord.content r = "")
  ∧ (∀ pv, content_preview state = Some pv →
           Preview.body pv = ContentRecord.content r
           ∧ Preview.summary pv = ContentRecord.summary r
           ∧ Preview.heading pv ≠ ""
           ∧ (ContentRecord.title r ≠ "" →
              Preview.heading pv = ContentRecord.title r)
           ∧ (ContentRecord.title r = "" → Preview.heading pv = "Untitled")).
Proof.
  simpl. unfold content_preview, truthy_string. split.
  - case_decide; split; done.
  - intros pv. case_decide as Hcontent; [done|]. intros [= <-]. simpl.
    rewrite or_else_empty. unfold or_else, truthy_string.
    case_decide as Htitle; repeat split; done.
Qed.

Lemma preview_follows_record_witness :
  let p := props_of (pending "confirm_content") in
  let state := interact (interact initialState (edit E_content "# Widget" p))
                        (edit E_summary "Out now" p) in
  let pv := Preview.mk "Untitled" "Out now" "# Widget" in
  content_preview state = Some pv
  ∧ Preview.body pv = ContentRecord.content (content_record state)
  ∧ Preview.heading pv = "Untitled".
Proof.
  intros p state pv.
  destruct (preview_follows_record state) as [_ Hshown].
  destruct (Hshown pv eq_refl) as (Hbody & _ & _ & _ & Huntitled).
  split; [reflexivity|]. split; [exact Hbody | by apply Huntitled].
Defined.

(** X15. What is typed into the content text area is what the preview
    shows next: a non-empty text becomes the body of the preview, under the
    title and summary the record has, and emptying the text area removes
    the preview. *)
Theorem typed_content_is_previewed (state : DevRelAgentState)
  (v : string) (p : Props.t) :
  let r := content_record state in
  let state' := interact state (edit E_content v p) in
  (v ≠ "" →
   content_preview state'
   = Some (Preview.mk (or_else (ContentRecord.title r) "Untitled")
                      (ContentRecord.summary r) v))
  ∧ (v = "" → content_preview state' = None).
Proof.
  simpl. rewrite interact_edit. simpl.
  unfold content_preview, truthy_string. simpl. split.
  - intros Hv. case_decide; [done|]. by rewrite or_else_empty.
  - intros ->. by case_decide.
Qed.

Lemma typed_content_is_previewed_witness :
  content_preview
    (interact initialState
              (edit E_content "# Widget 1.2"
                    (props_of (pending "confirm_content"))))
  = Some (Preview.mk "Untitled" "" "# Widget 1.2").
Proof.
  apply (typed_content_is_previewed initialState "# Widget 1.2").
  discriminate.
Defined.

(** ** The stepper *)

(** X16. In the stepper a circle is highlighted exactly for the steps up to
    the active one and a label exactly for the steps before it, so a
    highlighted label has its circle highlighted and the highlighted
    circles are an initial run of the steps; with the active step the page
    starts with, the first circle alone is highlighted and no label is. *)
Theorem stepper_marks_initial_steps (activeStep : nat) :
  (∀ item, item ∈ stepper activeStep →
           (Step.reached item = true ↔ (Step.number item ≤ activeStep)%nat)
           ∧ (Step.passed item = true ↔ (Step.number item < activeStep)%nat)
           ∧ (Step.passed item = true → Step.reached item = true))
  ∧ (∀ item item', item ∈ stepper activeStep → item' ∈ stepper activeStep →
       (Step.number item ≤ Step.number item')%nat →
       Step.reached item' = true → Step.reached item = true)
  ∧ Step.number <$> stepper activeStep = [1; 2; 3]
  ∧ Step.reached <$> stepper initialActiveStep = [true; false; false]
  ∧ Step.passed <$> stepper initialActiveStep = [false; false; false].
Proof.
  assert (∀ item, item ∈ stepper activeStep →
           (Step.reached item = true ↔ (Step.number item ≤ activeStep)%nat)
           ∧ (Step.passed item = true ↔ (Step.number item < activeStep)%nat))
    as Hmarks.
  { intros item Hin. unfold stepper in Hin.
    rewrite !elem_of_cons, elem_of_nil in Hin.
    destruct Hin as [-> | [-> | [-> | []]]];
      cbn [Step.reached Step.passed Step.number];
      rewrite Nat.leb_le, Nat.ltb_lt; done. }
  split; [|split; [|done]].
  - intros item Hin. destruct (Hmarks item Hin) as [Hreached Hpassed].
    split; [done|]. split; [done|].
    intros H. apply Hreached. apply Hpassed in H. lia.
  - intros item item' Hin Hin' Hle H.
    apply (Hmarks item Hin). apply (Hmarks item' Hin') in H. lia.
Qed.

Lemma stepper_marks_initial_steps_witness :
  Step.reached (Step.mk 1 "Repository" true true) = true.
Proof.
  destruct (stepper_marks_initial_steps 2) as (Hmarks & _).
  refine (proj2 (proj2 (Hmarks (Step.mk 1 "Repository" true true) _)) _).
  - apply elem_of_cons. by left.
  - reflexivity.
Defined.

(** ** The status display, read backwards *)

(** X17. [renderStatus] shows nothing exactly when the status and the error
    are both empty or absent; a status box holds the non-empty status of
    the state; an error box holds "Error: " followed by the non-empty error
    of the state, and is shown only when there is no status to show. *)
Theorem renderStatus_inversion (state : DevRelAgentState) :
  (renderStatus state = None
   ↔ truthy (status state) = false ∧ truthy (error state) = false)
  ∧ (∀ text, renderStatus state = Some (StatusBox text) →
             status state = Some text ∧ text ≠ "")
  ∧ (∀ text, renderStatus state = Some (ErrorBox text) →
             truthy (status state) = false
             ∧ ∃ e, error state = Some e ∧ e ≠ "" ∧ text = "Error: " +:+ e).
Proof.
  unfold renderStatus. split; [|split].
  - destruct (truthy (status state)), (truthy (error state)); split;
      try done; by intros [? ?].
  - intros text.
    destruct (truthy (status state)) eqn:Hs.
    + apply truthy_Some in Hs as (s & -> & Hne). by intros [= <-].
    + by destruct (truthy (error state)).
  - intros text.
    destruct (truthy (status state)) eqn:Hs; [done|].
    destruct (truthy (error state)) eqn:He; [|done].
    apply truthy_Some in He as (e & -> & Hne). intros [= <-].
    split; [done|]. by exists e.
Qed.

Lemma renderStatus_inversion_witness :
  status status_and_error = Some "Analyzing repository...".
Proof.
  destruct (renderStatus_inversion status_and_error) as (_ & Hbox & _).
  apply (Hbox "Analyzing repository..."). reflexivity.
Defined.

(** ** The theme colour of the sample page *)

(** X18. The colour of the sample page is the one of the latest
    [setThemeColor] call, or the initial "#6366f1" when there was none, and
    both the primary colour of [main] and the background of the content
    are that colour. *)
Theorem theme_is_latest_call (calls : list string) :
  let latest := default CopilotKitPage.initialThemeColor (last calls) in
  CopilotKitPage.after_calls calls = latest
  ∧ CopilotKitPage.primary_color
      (CopilotKitPage.styles (CopilotKitPage.after_calls calls))
    = latest
  ∧ CopilotKitPage.backgroundColor
      (CopilotKitPage.styles (CopilotKitPage.after_calls calls))
    = latest.
Proof.
  assert (CopilotKitPage.after_calls calls
          = default CopilotKitPage.initialThemeColor (last calls)) as Hlatest.
  { unfold CopilotKitPage.after_calls.
    induction calls as [|color calls IH] using rev_ind; [done|].
    by rewrite foldl_app, last_snoc. }
  simpl. by rewrite Hlatest.
Qed.
